(** * GPXPlotter: view limits, zoom, pan and plotting of GPX data

    Shallow embedding of [src/gpx_kml_converter/core/gpx_plotter.py].

    Numbers.  The Python code computes on [float]s.  Here every coordinate
    and every limit is an exact rational ([Q]): the float literals [0.1],
    [0.05], [0.001] and [1.2] are the rationals 1/10, 1/20, 1/1000 and 6/5,
    and [+ - * /] are exact.  Equality of limits is therefore [Qeq] ([==]),
    the equality of exact arithmetic; rounding is not modelled.

    Effects.  The plotter object is a record that is passed explicitly.  The
    Matplotlib axes are the part of the record that the code itself reads
    back or writes: the two limits ([get_xlim]/[set_xlim]) and the list of
    drawn artists.  Logging, [draw_idle], [draw], [set_aspect],
    [tick_params] and [set_facecolor] do not touch that state and are left
    out.  A Python exception is a value [Raise e] of the result type. *)

From Stdlib Require Import QArith Lqa ZArith List String Bool Lia.
Import ListNotations.
Open Scope Q_scope.

(** ** Exceptions and the error monad *)

Inductive PyExn : Type :=
| TypeError
| ValueError
| ZeroDivisionError.

Inductive result (A : Type) : Type :=
| Ok (a : A)
| Raise (e : PyExn).
Arguments Ok {A} a.
Arguments Raise {A} e.

Definition bind {A B : Type} (r : result A) (k : A -> result B) : result B :=
  match r with
  | Ok a => k a
  | Raise e => Raise e
  end.

Notation "x <- r ;; k" := (bind r (fun x => k))
  (at level 61, r at next level, right associativity).

(** ** Python primitives on numbers and lists *)

(** [x < y] on numbers, as a boolean. *)
Definition Qltb (x y : Q) : bool := negb (Qle_bool y x).

(** [max(a, b)]: the first argument unless the second is larger. *)
Definition py_max2 (a b : Q) : Q := if Qltb a b then b else a.

(** [min(xs)] and [max(xs)] of a list: [ValueError] on the empty list,
    otherwise the first smallest (largest) element. *)
Definition py_min (xs : list Q) : result Q :=
  match xs with
  | [] => Raise ValueError
  | x :: rest => Ok (fold_left (fun m y => if Qltb y m then y else m) rest x)
  end.

Definition py_max (xs : list Q) : result Q :=
  match xs with
  | [] => Raise ValueError
  | x :: rest => Ok (fold_left (fun m y => if Qltb m y then y else m) rest x)
  end.

(** Truth value of a list: [if xs:]. *)
Definition truthy {A : Type} (xs : list A) : bool :=
  match xs with
  | [] => false
  | _ :: _ => true
  end.

(** [[f(p) for p in ps if f(p) is not None]]. *)
Fixpoint not_none {A B : Type} (f : A -> option B) (ps : list A) : list B :=
  match ps with
  | [] => []
  | p :: rest =>
      match f p with
      | Some v => v :: not_none f rest
      | None => not_none f rest
      end
  end.

(** ** GPX data (the part of [gpxpy.gpx.GPX] that the plotter reads) *)

Record GPXPoint : Type := mkPoint {
  latitude : option Q;
  longitude : option Q
}.

Record GPXTrackSegment : Type := mkSegment {
  seg_points : list GPXPoint          (* segment.points *)
}.

Record GPXTrack : Type := mkTrack {
  segments : list GPXTrackSegment
}.

Record GPXRoute : Type := mkRoute {
  rte_points : list GPXPoint          (* route.points *)
}.

Record GPX : Type := mkGPX {
  tracks : list GPXTrack;
  routes : list GPXRoute;
  waypoints : list GPXPoint
}.

(** ** Matplotlib events *)

(** [event.button] is a string for scroll events (["up"], ["down"]) and a
    number for mouse buttons (1 is the left button). *)
Inductive Button : Type :=
| BtnStr (s : string)
| BtnInt (n : Z)
| BtnNone.

Definition button_is_str (b : Button) (s : string) : bool :=
  match b with
  | BtnStr t => String.eqb t s
  | _ => false
  end.

Definition button_is_int (b : Button) (n : Z) : bool :=
  match b with
  | BtnInt m => Z.eqb m n
  | _ => false
  end.

Record MplEvent : Type := mkEvent {
  inaxes : bool;                      (* event.inaxes == self.ax *)
  xdata : option Q;
  ydata : option Q;
  button : Button
}.

(** ** The plotter *)

Definition Lim : Type := (Q * Q)%type.

(** What [ax.plot], [ax.scatter] and the border layer leave on the axes. *)
Inductive Artist : Type :=
| Borders
| Line (lons lats : list Q) (dashed : bool)
| Scatter (lons lats : list Q).

Record GPXPlotter : Type := mkPlotter {
  ax_xlim : Lim;                      (* self.ax.get_xlim() *)
  ax_ylim : Lim;                      (* self.ax.get_ylim() *)
  ax_artists : list Artist;
  country_borders_gdf : bool;         (* is not None *)
  current_xlim : Lim;
  current_ylim : Lim;
  zoom_factor : Q;
  is_panning : bool;
  pan_start_x : option Q;
  pan_start_y : option Q;
  tk_cursor : string
}.

Definition default_xlim : Lim := (-10 # 1, 30 # 1).
Definition default_ylim : Lim := (35 # 1, 65 # 1).

(** [__init__]; the argument says whether the shapefile could be loaded. *)
Definition init (borders : bool) : GPXPlotter :=
  {| ax_xlim := default_xlim;
     ax_ylim := default_ylim;
     ax_artists := [];
     country_borders_gdf := borders;
     current_xlim := default_xlim;
     current_ylim := default_ylim;
     zoom_factor := 12 # 10;
     is_panning := false;
     pan_start_x := None;
     pan_start_y := None;
     tk_cursor := "" |}.

(** Field updates.  [with_ax_limits] is [ax.set_xlim(xl); ax.set_ylim(yl)],
    [with_current] is the assignment of [current_xlim] and [current_ylim]. *)
Definition with_ax_limits (self : GPXPlotter) (xl yl : Lim) : GPXPlotter :=
  {| ax_xlim := xl;
     ax_ylim := yl;
     ax_artists := ax_artists self;
     country_borders_gdf := country_borders_gdf self;
     current_xlim := current_xlim self;
     current_ylim := current_ylim self;
     zoom_factor := zoom_factor self;
     is_panning := is_panning self;
     pan_start_x := pan_start_x self;
     pan_start_y := pan_start_y self;
     tk_cursor := tk_cursor self |}.

Definition with_current (self : GPXPlotter) (xl yl : Lim) : GPXPlotter :=
  {| ax_xlim := ax_xlim self;
     ax_ylim := ax_ylim self;
     ax_artists := ax_artists self;
     country_borders_gdf := country_borders_gdf self;
     current_xlim := xl;
     current_ylim := yl;
     zoom_factor := zoom_factor self;
     is_panning := is_panning self;
     pan_start_x := pan_start_x self;
     pan_start_y := pan_start_y self;
     tk_cursor := tk_cursor self |}.

Definition with_artists (self : GPXPlotter) (arts : list Artist) : GPXPlotter :=
  {| ax_xlim := ax_xlim self;
     ax_ylim := ax_ylim self;
     ax_artists := arts;
     country_borders_gdf := country_borders_gdf self;
     current_xlim := current_xlim self;
     current_ylim := current_ylim self;
     zoom_factor := zoom_factor self;
     is_panning := is_panning self;
     pan_start_x := pan_start_x self;
     pan_start_y := pan_start_y self;
     tk_cursor := tk_cursor self |}.

Definition with_pan (self : GPXPlotter) (panning : bool)
    (sx sy : option Q) (cursor : string) : GPXPlotter :=
  {| ax_xlim := ax_xlim self;
     ax_ylim := ax_ylim self;
     ax_artists := ax_artists self;
     country_borders_gdf := country_borders_gdf self;
     current_xlim := current_xlim self;
     current_ylim := current_ylim self;
     zoom_factor := zoom_factor self;
     is_panning := panning;
     pan_start_x := sx;
     pan_start_y := sy;
     tk_cursor := cursor |}.

(** [a / b] on numbers. *)
Definition py_div (a b : Q) : result Q :=
  if Qeq_bool b 0 then Raise ZeroDivisionError else Ok (a / b).

(** [a - b] where [a] may be [None]. *)
Definition py_sub_opt (a : option Q) (b : Q) : result Q :=
  match a with
  | Some v => Ok (v - b)
  | None => Raise TypeError
  end.

(** *** [_on_scroll] *)

(** Lines 106-120: the new limits around the cursor, stored on the axes and
    in [current_xlim]/[current_ylim]. *)
Definition zoom_limits (self : GPXPlotter) (x y scale_factor : Q) : GPXPlotter :=
  let cur_xlim := ax_xlim self in
  let cur_ylim := ax_ylim self in
  let new_xlim := (x - (x - fst cur_xlim) * scale_factor,
                   x + (snd cur_xlim - x) * scale_factor) in
  let new_ylim := (y - (y - fst cur_ylim) * scale_factor,
                   y + (snd cur_ylim - y) * scale_factor) in
  with_current (with_ax_limits self new_xlim new_ylim) new_xlim new_ylim.

Definition on_scroll (self : GPXPlotter) (event : MplEvent) : result GPXPlotter :=
  if inaxes event then
    match xdata event, ydata event with
    | Some x, Some y =>
        if button_is_str (button event) "up" then
          scale_factor <- py_div 1 (zoom_factor self) ;;
          Ok (zoom_limits self x y scale_factor)
        else if button_is_str (button event) "down" then
          Ok (zoom_limits self x y (zoom_factor self))
        else Ok self
    | _, _ => Ok self
    end
  else Ok self.

(** *** [_on_button_press], [_on_button_release] *)

Definition on_button_press (self : GPXPlotter) (event : MplEvent) : result GPXPlotter :=
  if inaxes event && button_is_int (button event) 1 then
    Ok (with_pan self true (xdata event) (ydata event) "fleur")
  else Ok self.

Definition on_button_release (self : GPXPlotter) (event : MplEvent) : result GPXPlotter :=
  if button_is_int (button event) 1 then
    Ok (with_pan self false (pan_start_x self) (pan_start_y self) "hand2")
  else Ok self.

(** *** [_on_mouse_motion] *)

Definition on_mouse_motion (self : GPXPlotter) (event : MplEvent) : result GPXPlotter :=
  if is_panning self && inaxes event then
    match xdata event, ydata event with
    | Some x, Some y =>
        dx <- py_sub_opt (pan_start_x self) x ;;
        dy <- py_sub_opt (pan_start_y self) y ;;
        let cur_xlim := ax_xlim self in
        let cur_ylim := ax_ylim self in
        let new_xlim := (fst cur_xlim + dx, snd cur_xlim + dx) in
        let new_ylim := (fst cur_ylim + dy, snd cur_ylim + dy) in
        Ok (with_current (with_ax_limits self new_xlim new_ylim) new_xlim new_ylim)
    | _, _ => Ok self
    end
  else Ok self.

(** *** [_on_resize]: logs and redraws only. *)
Definition on_resize (self : GPXPlotter) : result GPXPlotter := Ok self.

(** *** [_set_plot_limits] *)

(** Lines 244-269: from the extremes of the data to the two limits.  The
    padded limits are assigned first and are overwritten by the fixed square
    when both ranges are very small. *)
Definition fit_limits (min_lon max_lon min_lat max_lat : Q) : Lim * Lim :=
  let lat_range := max_lat - min_lat in
  let lon_range := max_lon - min_lon in
  let buffer_factor := 1 # 10 in
  let min_buffer_deg := 5 # 100 in
  let lat_buffer :=
    py_max2 (lat_range * buffer_factor)
            (if Qltb lat_range (1 # 10) then min_buffer_deg else 0) in
  let lon_buffer :=
    py_max2 (lon_range * buffer_factor)
            (if Qltb lon_range (1 # 10) then min_buffer_deg else 0) in
  let current : Lim * Lim :=
    ((min_lon - lon_buffer, max_lon + lon_buffer),
     (min_lat - lat_buffer, max_lat + lat_buffer)) in
  if Qltb lat_range (1 # 1000) && Qltb lon_range (1 # 1000) then
    let center_lat := (min_lat + max_lat) / 2 in
    let center_lon := (min_lon + max_lon) / 2 in
    let extension := 1 # 10 in
    ((center_lon - extension, center_lon + extension),
     (center_lat - extension, center_lat + extension))
  else current.

Definition set_plot_limits (self : GPXPlotter) (all_points_coords : list (Q * Q))
    : result GPXPlotter :=
  current <-
    (if truthy all_points_coords then
       let all_lons := map fst all_points_coords in
       let all_lats := map snd all_points_coords in
       min_lat <- py_min all_lats ;;
       max_lat <- py_max all_lats ;;
       min_lon <- py_min all_lons ;;
       max_lon <- py_max all_lons ;;
       Ok (fit_limits min_lon max_lon min_lat max_lat)
     else Ok (default_xlim, default_ylim)) ;;
  let self' := with_current self (fst current) (snd current) in
  Ok (with_ax_limits self' (current_xlim self') (current_ylim self')).

(** *** [plot_gpx_data] *)

(** The body of the track loop (lines 192-199) and of the route loop
    (lines 203-210): they differ in the line style only.  The state of the
    loops is the artists drawn so far and [all_points_coords]. *)
Definition Canvas : Type := (list Artist * list (Q * Q))%type.

Definition plot_polyline (dashed : bool) (acc : Canvas) (points : list GPXPoint)
    : Canvas :=
  if truthy points then
    let lats := not_none latitude points in
    let lons := not_none longitude points in
    if truthy lats && truthy lons then
      (fst acc ++ [Line lons lats dashed], snd acc ++ combine lons lats)
    else acc
  else acc.

Definition plot_tracks (acc : Canvas) (trks : list GPXTrack) : Canvas :=
  fold_left
    (fun acc track =>
       fold_left (fun acc segment => plot_polyline false acc (seg_points segment))
                 (segments track) acc)
    trks acc.

Definition plot_routes (acc : Canvas) (rtes : list GPXRoute) : Canvas :=
  fold_left (fun acc route => plot_polyline true acc (rte_points route)) rtes acc.

Definition plot_waypoints (acc : Canvas) (wpts : list GPXPoint) : Canvas :=
  let waypoint_lons := not_none longitude wpts in
  let waypoint_lats := not_none latitude wpts in
  if truthy waypoint_lons && truthy waypoint_lats then
    (fst acc ++ [Scatter waypoint_lons waypoint_lats],
     snd acc ++ combine waypoint_lons waypoint_lats)
  else acc.

(** Everything that [plot_gpx_data] draws and accumulates before it calls
    [_set_plot_limits] (lines 178-219). *)
Definition plot_layers (borders : bool) (gpx_data : GPX) : Canvas :=
  let acc0 : Canvas := (if borders then [Borders] else [], []) in
  plot_waypoints
    (plot_routes (plot_tracks acc0 (tracks gpx_data)) (routes gpx_data))
    (waypoints gpx_data).

Definition plot_gpx_data (self : GPXPlotter) (gpx_data : GPX) : result GPXPlotter :=
  let canvas := plot_layers (country_borders_gdf self) gpx_data in
  set_plot_limits (with_artists self (fst canvas)) (snd canvas).

(** *** [clear_plot] *)
Definition clear_plot (self : GPXPlotter) : result GPXPlotter :=
  Ok (with_current (with_ax_limits (with_artists self []) default_xlim default_ylim)
                   default_xlim default_ylim).

(** ** Sequences of calls *)

(** The event handlers and public methods, as the GUI invokes them. *)
Inductive Op : Type :=
| Scroll (event : MplEvent)
| ButtonPress (event : MplEvent)
| ButtonRelease (event : MplEvent)
| MouseMotion (event : MplEvent)
| Resize
| PlotGpxData (gpx_data : GPX)
| SetPlotLimits (all_points_coords : list (Q * Q))
| ClearPlot.

Definition step (self : GPXPlotter) (op : Op) : result GPXPlotter :=
  match op with
  | Scroll e => on_scroll self e
  | ButtonPress e => on_button_press self e
  | ButtonRelease e => on_button_release self e
  | MouseMotion e => on_mouse_motion self e
  | Resize => on_resize self
  | PlotGpxData g => plot_gpx_data self g
  | SetPlotLimits coords => set_plot_limits self coords
  | ClearPlot => clear_plot self
  end.

Fixpoint run (self : GPXPlotter) (ops : list Op) : result GPXPlotter :=
  match ops with
  | [] => Ok self
  | op :: rest => self' <- step self op ;; run self' rest
  end.

(** ** Predicates on limits *)

(** Two limits are the same interval. *)
Definition lim_eq (a b : Lim) : Prop := fst a == fst b /\ snd a == snd b.

(** The view of a plotter, on the axes and as remembered, is [xl] by [yl]. *)
Definition view_is (s : GPXPlotter) (xl yl : Lim) : Prop :=
  lim_eq (ax_xlim s) xl /\ lim_eq (ax_ylim s) yl /\
  lim_eq (current_xlim s) xl /\ lim_eq (current_ylim s) yl.






(** Events built from their fields. *)
Definition scroll_event (dir : string) (x y : Q) : MplEvent :=
  {| inaxes := true; xdata := Some x; ydata := Some y; button := BtnStr dir |}.

Definition motion_event (x y : Q) : MplEvent :=
  {| inaxes := true; xdata := Some x; ydata := Some y; button := BtnNone |}.

Definition press_event (x y : Q) : MplEvent :=
  {| inaxes := true; xdata := Some x; ydata := Some y; button := BtnInt 1 |}.

(** ** Points with both coordinates *)

(** Follows the words of the specification, for comparison with
    [plot_layers]: a point counts when both of its coordinates are defined,
    a segment or route is drawn through those points in order when there is
    at least one, and exactly those points are accumulated. *)
Definition both_defined (p : GPXPoint) : option (Q * Q) :=
  match longitude p, latitude p with
  | Some lon, Some lat => Some (lon, lat)
  | _, _ => None
  end.

Definition spec_polyline (dashed : bool) (acc : Canvas) (points : list GPXPoint)
    : Canvas :=
  let pts := not_none both_defined points in
  if truthy pts then
    (fst acc ++ [Line (map fst pts) (map snd pts) dashed], snd acc ++ pts)
  else acc.

Definition spec_waypoints (acc : Canvas) (wpts : list GPXPoint) : Canvas :=
  let pts := not_none both_defined wpts in
  if truthy pts then
    (fst acc ++ [Scatter (map fst pts) (map snd pts)], snd acc ++ pts)
  else acc.

Definition spec_plot_layers (borders : bool) (gpx_data : GPX) : Canvas :=
  let acc0 : Canvas := (if borders then [Borders] else [], []) in
  spec_waypoints
    (fold_left (fun acc route => spec_polyline true acc (rte_points route))
       (routes gpx_data)
       (fold_left
          (fun acc track =>
             fold_left
               (fun acc segment => spec_polyline false acc (seg_points segment))
               (segments track) acc)
          (tracks gpx_data) acc0))
    (waypoints gpx_data).

(** A point with exactly one coordinate missing. *)
Definition half_defined (p : GPXPoint) : bool :=
  match longitude p, latitude p with
  | Some _, None | None, Some _ => true
  | _, _ => false
  end.

(** All points of a GPX object. *)
Definition gpx_points (g : GPX) : list GPXPoint :=
  flat_map (fun t => flat_map seg_points (segments t)) (tracks g)
  ++ flat_map rte_points (routes g) ++ waypoints g.


(** ** Concrete plotters and inputs *)

(** The plotter after a press of the left button at (10, 50). *)
Definition pressed : GPXPlotter :=
  with_pan (init false) true (Some (10 # 1)) (Some (50 # 1)) "fleur".

(** A session: zoom in, drag, fit to two points, zoom out, clear, fit. *)
Definition session : list Op :=
  [ Scroll (scroll_event "up" (10 # 1) (50 # 1));
    ButtonPress (press_event (10 # 1) (50 # 1));
    MouseMotion (motion_event (12 # 1) (49 # 1));
    ButtonRelease (press_event (12 # 1) (49 # 1));
    SetPlotLimits [(10 # 1, 50 # 1); (12 # 1, 51 # 1)];
    Scroll (scroll_event "down" (11 # 1) (50 # 1));
    ClearPlot;
    PlotGpxData (mkGPX [] [] [mkPoint (Some (50 # 1)) (Some (10 # 1))]) ].

Definition after_session : GPXPlotter :=
  Eval vm_compute in
    match run (init false) session with
    | Ok s => s
    | Raise _ => init false
    end.

(** One track with one segment of three points: the first has a latitude
    only, the second has both coordinates, the third a longitude only. *)
Definition mixed_gpx : GPX :=
  {| tracks :=
       [ {| segments :=
              [ {| seg_points :=
                     [ {| latitude := Some (1 # 1); longitude := None |};
                       {| latitude := Some (2 # 1); longitude := Some (10 # 1) |};
                       {| latitude := None; longitude := Some (20 # 1) |} ] |} ] |} ];
     routes := [];
     waypoints := [] |}.

(** ** [_load_shape_files] and the constructor *)

(** What the logger receives: the level of each record, in order. *)
Inductive LogLevel : Type :=
| LogInfo
| LogWarning
| LogError.

(** What [_load_shape_files] finds outside the program: whether the
    [geopandas] import succeeded, what [shp_path.exists()] answers and what
    [gpd.read_file(shp_path)] returns; [None] stands for a call that raises
    an [Exception]. *)
Record ShapeEnv (G : Type) : Type := mkShapeEnv {
  geopandas_available : bool;         (* GEOPANDAS_AVAILABLE *)
  shp_exists : option bool;
  read_file : option G
}.
Arguments geopandas_available {G} _.
Arguments shp_exists {G} _.
Arguments read_file {G} _.

(** The returned frame ([None] when there is no border layer) and the log.
    Every exception of the [try] block is caught by [except Exception]. *)
Definition load_shape_files {G : Type} (env : ShapeEnv G) : option G * list LogLevel :=
  if geopandas_available env then
    match shp_exists env with
    | Some true =>
        match read_file env with
        | Some gdf => (Some gdf, [LogInfo])
        | None => (None, [LogError])
        end
    | Some false => (None, [LogWarning])
    | None => (None, [LogError])
    end
  else (None, [LogWarning]).

(** [GPXPlotter(fig, ax, canvas, logger)] in an environment. *)
Definition new_plotter {G : Type} (env : ShapeEnv G) : GPXPlotter :=
  init (match fst (load_shape_files env) with Some _ => true | None => false end).

(** ** Notions used in the statements below *)



(** The pointer-move events at a list of cursor positions. *)
Definition moves (cursors : list (Q * Q)) : list Op :=
  map (fun c => MouseMotion (motion_event (fst c) (snd c))) cursors.

(** The sum of anchor - cursor over a list of cursor coordinates. *)
Definition total_delta (anchor : Q) (cursor_coords : list Q) : Q :=
  fold_right (fun c acc => (anchor - c) + acc) 0 cursor_coords.

(** The padding that [_set_plot_limits] ends up with for a range. *)
Definition padding (range : Q) : Q :=
  if Qltb range (1 # 10) then 5 # 100 else range * (1 # 10).

(** Kinds of artists. *)
Definition is_line (dashed : bool) (a : Artist) : bool :=
  match a with
  | Line _ _ d => Bool.eqb d dashed
  | _ => false
  end.

Definition is_scatter (a : Artist) : bool :=
  match a with
  | Scatter _ _ => true
  | _ => false
  end.

(** The limits of a plotter, on the axes and as remembered. *)
Definition limits_of (s : GPXPlotter) : Lim * Lim * (Lim * Lim) :=
  ((ax_xlim s, ax_ylim s), (current_xlim s, current_ylim s)).

(** A value lies in a limit; one limit lies in another; the length of a
    limit. *)
Definition within (v : Q) (l : Lim) : Prop := fst l <= v /\ v <= snd l.

Definition nested (inner outer : Lim) : Prop :=
  fst outer <= fst inner /\ snd inner <= snd outer.

Definition extent (l : Lim) : Q := snd l - fst l.

(** What one segment or route, and the waypoints, add to an empty canvas. *)
Definition polyline_of (dashed : bool) (points : list GPXPoint) : Canvas :=
  plot_polyline dashed ([], []) points.

Definition waypoints_of (wpts : list GPXPoint) : Canvas :=
  plot_waypoints ([], []) wpts.

(** The two coordinate lists of an artist have the same length, which is
    what [ax.plot] and [ax.scatter] accept. *)
Definition lists_match (a : Artist) : bool :=
  match a with
  | Borders => true
  | Line lons lats _ | Scatter lons lats => Nat.eqb (List.length lons) (List.length lats)
  end.

(** The artists of the border layer. *)
Definition border_artists (borders : bool) : list Artist :=
  if borders then [Borders] else [].

(** Calls that only press or release a button or resize the figure. *)
Definition is_click (op : Op) : bool :=
  match op with
  | ButtonPress _ | ButtonRelease _ | Resize => true
  | _ => false
  end.

(** * Properties *)

(** ** Comparisons, [min] and [max] *)

Lemma Qltb_true (x y : Q) : Qltb x y = true <-> x < y.
Proof.
  unfold Qltb. rewrite negb_true_iff, <- not_true_iff_false, Qle_bool_iff.
  split; intro H; [apply Qnot_le_lt | apply Qlt_not_le]; exact H.
Qed.

Lemma Qltb_false (x y : Q) : Qltb x y = false <-> y <= x.
Proof.
  unfold Qltb. rewrite negb_false_iff, Qle_bool_iff. reflexivity.
Qed.

(** Case analysis on a comparison, leaving the order fact in the context. *)
Ltac case_Qltb x y :=
  let H := fresh "Hcmp" in
  destruct (Qltb x y) eqn:H;
  [apply Qltb_true in H | apply Qltb_false in H].

(** Linear arithmetic does not look through [_ / 2]: write it [_ * (1/2)]. *)
Ltac halves := unfold Qdiv in *; change (/ 2) with (1 # 2) in *.


Section FoldBounds.

Let fmin (m y : Q) : Q := if Qltb y m then y else m.
Let fmax (m y : Q) : Q := if Qltb m y then y else m.

Lemma fold_min_lower (rest : list Q) (m : Q) :
  fold_left fmin rest m <= m /\
  forall y, In y rest -> fold_left fmin rest m <= y.
Proof.
  revert m. induction rest as [|z rest IH]; intro m; simpl.
  - split; [lra | intros y []].
  - destruct (IH (fmin m z)) as [Hm Hin].
    assert (Hz : fmin m z <= m /\ fmin m z <= z).
    { unfold fmin. case_Qltb z m; split; lra. }
    split; [lra |].
    intros y [<- | Hy]; [lra | auto].
Qed.

Lemma fold_max_upper (rest : list Q) (m : Q) :
  m <= fold_left fmax rest m /\
  forall y, In y rest -> y <= fold_left fmax rest m.
Proof.
  revert m. induction rest as [|z rest IH]; intro m; simpl.
  - split; [lra | intros y []].
  - destruct (IH (fmax m z)) as [Hm Hin].
    assert (Hz : m <= fmax m z /\ z <= fmax m z).
    { unfold fmax. case_Qltb m z; split; lra. }
    split; [lra |].
    intros y [<- | Hy]; [lra | auto].
Qed.

End FoldBounds.

Lemma py_min_ok (xs : list Q) :
  xs <> [] -> exists m, py_min xs = Ok m /\ forall y, In y xs -> m <= y.
Proof.
  destruct xs as [|x rest]; [congruence | intros _].
  eexists; split; [reflexivity |].
  destruct (fold_min_lower rest x) as [Hx Hin].
  intros y [<- | Hy]; auto.
Qed.

Lemma py_max_ok (xs : list Q) :
  xs <> [] -> exists m, py_max xs = Ok m /\ forall y, In y xs -> y <= m.
Proof.
  destruct xs as [|x rest]; [congruence | intros _].
  eexists; split; [reflexivity |].
  destruct (fold_max_upper rest x) as [Hx Hin].
  intros y [<- | Hy]; auto.
Qed.

(** ** The fitted limits *)

Section FitLimits.

Variables min_lon max_lon min_lat max_lat : Q.
Hypothesis lon_ordered : min_lon <= max_lon.
Hypothesis lat_ordered : min_lat <= max_lat.




Lemma fit_limits_small :
  max_lon - min_lon < 1 # 1000 ->
  max_lat - min_lat < 1 # 1000 ->
  fit_limits min_lon max_lon min_lat max_lat =
  (((min_lon + max_lon) / 2 - (1 # 10), (min_lon + max_lon) / 2 + (1 # 10)),
   ((min_lat + max_lat) / 2 - (1 # 10), (min_lat + max_lat) / 2 + (1 # 10))).
Proof.
  intros Hx Hy. unfold fit_limits.
  apply Qltb_true in Hx, Hy. rewrite Hx, Hy. reflexivity.
Qed.

End FitLimits.

(** [_set_plot_limits] on a list with at least one pair returns, and its
    limits are [fit_limits] of extremes that bound every pair. *)
Lemma set_plot_limits_nonempty (self : GPXPlotter) (coords : list (Q * Q)) :
  coords <> [] ->
  exists min_lon max_lon min_lat max_lat,
    py_min (map fst coords) = Ok min_lon /\
    py_max (map fst coords) = Ok max_lon /\
    py_min (map snd coords) = Ok min_lat /\
    py_max (map snd coords) = Ok max_lat /\
    (forall lon lat, In (lon, lat) coords ->
       min_lon <= lon <= max_lon /\ min_lat <= lat <= max_lat) /\
    min_lon <= max_lon /\ min_lat <= max_lat /\
    let fit := fit_limits min_lon max_lon min_lat max_lat in
    set_plot_limits self coords =
    Ok (with_ax_limits (with_current self (fst fit) (snd fit)) (fst fit) (snd fit)).
Proof.
  intro Hne.
  assert (Hx : map fst coords <> []) by (destruct coords; [congruence | discriminate]).
  assert (Hy : map snd coords <> []) by (destruct coords; [congruence | discriminate]).
  destruct (py_min_ok _ Hx) as (min_lon & Emin_lon & Lmin_lon).
  destruct (py_max_ok _ Hx) as (max_lon & Emax_lon & Lmax_lon).
  destruct (py_min_ok _ Hy) as (min_lat & Emin_lat & Lmin_lat).
  destruct (py_max_ok _ Hy) as (max_lat & Emax_lat & Lmax_lat).
  exists min_lon, max_lon, min_lat, max_lat.
  assert (Hin : forall lon lat, In (lon, lat) coords ->
            min_lon <= lon <= max_lon /\ min_lat <= lat <= max_lat).
  { intros lon lat Hp.
    pose proof (in_map fst _ _ Hp) as Hl. pose proof (in_map snd _ _ Hp) as Hr.
    cbn [fst snd] in Hl, Hr. repeat split; auto. }
  assert (Hord : min_lon <= max_lon /\ min_lat <= max_lat).
  { destruct coords as [|[lon lat] rest]; [congruence |].
    destruct (Hin lon lat (or_introl eq_refl)). split; lra. }
  destruct Hord as [Hlon Hlat].
  do 4 (split; [assumption |]).
  split; [exact Hin |]. split; [exact Hlon |]. split; [exact Hlat |].
  cbv zeta. unfold set_plot_limits.
  replace (truthy coords) with true by (destruct coords; [congruence | reflexivity]).
    rewrite Emin_lat, Emax_lat, Emin_lon, Emax_lon. reflexivity.
Qed.

(** Reading the fields of an updated plotter. *)
Lemma limits_after_fit (self : GPXPlotter) (xl yl : Lim) :
  let self' := with_ax_limits (with_current self xl yl) xl yl in
  ax_xlim self' = xl /\ ax_ylim self' = yl /\
  current_xlim self' = xl /\ current_ylim self' = yl.
Proof. cbv zeta. repeat split. Qed.



(** ** Auto-fit *)



(** Shared by the two statements on tight clusters below. *)
Lemma set_plot_limits_small (self : GPXPlotter) (coords : list (Q * Q))
    (min_lon max_lon min_lat max_lat : Q) :
  py_min (map fst coords) = Ok min_lon ->
  py_max (map fst coords) = Ok max_lon ->
  py_min (map snd coords) = Ok min_lat ->
  py_max (map snd coords) = Ok max_lat ->
  max_lon - min_lon < 1 # 1000 ->
  max_lat - min_lat < 1 # 1000 ->
  let xl := ((min_lon + max_lon) / 2 - (1 # 10), (min_lon + max_lon) / 2 + (1 # 10)) in
  let yl := ((min_lat + max_lat) / 2 - (1 # 10), (min_lat + max_lat) / 2 + (1 # 10)) in
  set_plot_limits self coords = Ok (with_ax_limits (with_current self xl yl) xl yl).
Proof.
  intros Emin_lon Emax_lon Emin_lat Emax_lat Hx Hy. cbv zeta.
  unfold set_plot_limits.
  replace (truthy coords) with true by (destruct coords; [discriminate | reflexivity]).
  rewrite Emin_lat, Emax_lat, Emin_lon, Emax_lon. cbn [bind].
  rewrite (fit_limits_small _ _ _ _ Hx Hy). reflexivity.
Qed.



(** A single point P: the square of side 0.2 centred on P. *)
Corollary single_point_square (self : GPXPlotter) (lon lat : Q) :
  exists self',
    set_plot_limits self [(lon, lat)] = Ok self' /\
    view_is self' (lon - (1 # 10), lon + (1 # 10)) (lat - (1 # 10), lat + (1 # 10)).
Proof.
  eexists; split.
  - apply (set_plot_limits_small self [(lon, lat)] lon lon lat lat);
      try reflexivity; lra.
  - unfold view_is, lim_eq; cbn. repeat split; halves; lra.
Qed.

(** C8: with an empty list [_set_plot_limits] leaves the default region,
    lon (-10, 30) by lat (35, 65), as remembered limits and on the axes; so
    does [clear_plot]. *)
Theorem empty_fit_and_clear_restore_default (self : GPXPlotter) :
  (exists self',
     set_plot_limits self [] = Ok self' /\
     current_xlim self' = (-10 # 1, 30 # 1) /\ current_ylim self' = (35 # 1, 65 # 1) /\
     ax_xlim self' = (-10 # 1, 30 # 1) /\ ax_ylim self' = (35 # 1, 65 # 1)) /\
  (exists self',
     clear_plot self = Ok self' /\
     current_xlim self' = (-10 # 1, 30 # 1) /\ current_ylim self' = (35 # 1, 65 # 1) /\
     ax_xlim self' = (-10 # 1, 30 # 1) /\ ax_ylim self' = (35 # 1, 65 # 1)).
Proof.
  split; eexists; (split; [reflexivity |]); repeat split.
Qed.

(** ** Zoom *)




Lemma on_scroll_down (self : GPXPlotter) (event : MplEvent) (x y : Q) :
  inaxes event = true -> xdata event = Some x -> ydata event = Some y ->
  button event = BtnStr "down" ->
  on_scroll self event = Ok (zoom_limits self x y (zoom_factor self)).
Proof.
  intros Ha Hx Hy Hb. unfold on_scroll.
  rewrite Ha, Hx, Hy, Hb. reflexivity.
Qed.







(** ** Pan *)

(** What [_on_mouse_motion] returns during a pan whose anchor is recorded,
    for an event over the axes with cursor coordinates. *)
Lemma on_mouse_motion_panning (self : GPXPlotter) (event : MplEvent)
    (x y anchor_x anchor_y : Q) :
  is_panning self = true ->
  pan_start_x self = Some anchor_x -> pan_start_y self = Some anchor_y ->
  inaxes event = true -> xdata event = Some x -> ydata event = Some y ->
  let dx := anchor_x - x in
  let dy := anchor_y - y in
  let new_xlim := (fst (ax_xlim self) + dx, snd (ax_xlim self) + dx) in
  let new_ylim := (fst (ax_ylim self) + dy, snd (ax_ylim self) + dy) in
  on_mouse_motion self event =
  Ok (with_current (with_ax_limits self new_xlim new_ylim) new_xlim new_ylim).
Proof.
  intros Hp Hsx Hsy Ha Hx Hy. unfold on_mouse_motion.
  rewrite Hp, Ha, Hx, Hy, Hsx, Hsy. reflexivity.
Qed.

(** C5: during an active pan a pointer-move event over the axes takes, on
    each axis, delta = anchor - cursor coordinate, adds delta to both bounds
    of that axis (so the extent of the axis is kept), and leaves the anchor
    [pan_start_x], [pan_start_y] and the pan itself as they were. *)
Theorem pan_shifts_by_anchor_delta (self : GPXPlotter) (event : MplEvent)
    (x y anchor_x anchor_y : Q) :
  is_panning self = true ->
  pan_start_x self = Some anchor_x -> pan_start_y self = Some anchor_y ->
  inaxes event = true -> xdata event = Some x -> ydata event = Some y ->
  exists self',
    on_mouse_motion self event = Ok self' /\
    let dx := anchor_x - x in
    let dy := anchor_y - y in
    ax_xlim self' = (fst (ax_xlim self) + dx, snd (ax_xlim self) + dx) /\
    ax_ylim self' = (fst (ax_ylim self) + dy, snd (ax_ylim self) + dy) /\
    current_xlim self' = ax_xlim self' /\
    current_ylim self' = ax_ylim self' /\
    snd (ax_xlim self') - fst (ax_xlim self') == snd (ax_xlim self) - fst (ax_xlim self) /\
    snd (ax_ylim self') - fst (ax_ylim self') == snd (ax_ylim self) - fst (ax_ylim self) /\
    pan_start_x self' = Some anchor_x /\
    pan_start_y self' = Some anchor_y /\
    is_panning self' = true.
Proof.
  intros Hp Hsx Hsy Ha Hx Hy.
  eexists; split;
    [exact (on_mouse_motion_panning self event x y anchor_x anchor_y
              Hp Hsx Hsy Ha Hx Hy) |].
  cbn. repeat split; try assumption; ring.
Qed.

Lemma pan_shifts_by_anchor_delta_witness :
  on_button_press (init false) (press_event (10 # 1) (50 # 1)) = Ok pressed /\
  exists self',
    on_mouse_motion pressed (motion_event (12 # 1) (49 # 1)) = Ok self' /\
    ax_xlim self' = (fst (ax_xlim pressed) + ((10 # 1) - (12 # 1)),
                     snd (ax_xlim pressed) + ((10 # 1) - (12 # 1))) /\
    ax_ylim self' = (fst (ax_ylim pressed) + ((50 # 1) - (49 # 1)),
                     snd (ax_ylim pressed) + ((50 # 1) - (49 # 1))) /\
    current_xlim self' = ax_xlim self' /\
    current_ylim self' = ax_ylim self' /\
    snd (ax_xlim self') - fst (ax_xlim self')
      == snd (ax_xlim pressed) - fst (ax_xlim pressed) /\
    snd (ax_ylim self') - fst (ax_ylim self')
      == snd (ax_ylim pressed) - fst (ax_ylim pressed) /\
    pan_start_x self' = Some (10 # 1) /\
    pan_start_y self' = Some (50 # 1) /\
    is_panning self' = true.
Proof.
  split; [reflexivity |].
  apply (pan_shifts_by_anchor_delta pressed (motion_event (12 # 1) (49 # 1))
           (12 # 1) (49 # 1) (10 # 1) (50 # 1));
    reflexivity.
Defined.



(** The anchor is whatever the press event carried.  A press over the axes
    that carries no coordinates starts a pan without an anchor, and the next
    move over the axes raises [TypeError]. *)
Lemma move_after_press_without_coordinates (self : GPXPlotter) (x y : Q) :
  let press := {| inaxes := true; xdata := None; ydata := None; button := BtnInt 1 |} in
  exists s1,
    on_button_press self press = Ok s1 /\
    on_mouse_motion s1 (motion_event x y) = Raise TypeError.
Proof.
  cbv zeta. eexists. split; reflexivity.
Qed.

(** ** Events that leave the view alone *)

(** C10: a scroll event whose button is neither "up" nor "down" leaves the
    plotter, and so its limits, unchanged, also over the axes with cursor
    coordinates; a pointer-move event while no pan is active does too. *)
Theorem other_events_leave_view (self : GPXPlotter) (event : MplEvent) :
  (button event <> BtnStr "up" -> button event <> BtnStr "down" ->
   on_scroll self event = Ok self) /\
  (is_panning self = false -> on_mouse_motion self event = Ok self).
Proof.
  split.
  - intros Hup Hdown. unfold on_scroll.
    destruct (inaxes event); [| reflexivity].
    destruct (xdata event); [| reflexivity].
    destruct (ydata event); [| reflexivity].
    destruct (button event) as [s | n |]; cbn [button_is_str]; try reflexivity.
    destruct (String.eqb_spec s "up") as [-> | _]; [congruence |].
    destruct (String.eqb_spec s "down") as [-> | _]; [congruence |].
    reflexivity.
  - intro Hp. unfold on_mouse_motion. rewrite Hp. reflexivity.
Qed.

Lemma other_events_leave_view_witness :
  on_scroll (init false) (scroll_event "left" (10 # 1) (50 # 1)) = Ok (init false) /\
  on_mouse_motion (init false) (motion_event (10 # 1) (50 # 1)) = Ok (init false).
Proof.
  split.
  - apply (proj1 (other_events_leave_view (init false)
                    (scroll_event "left" (10 # 1) (50 # 1)))); discriminate.
  - apply (proj2 (other_events_leave_view (init false)
                    (motion_event (10 # 1) (50 # 1)))); reflexivity.
Defined.

(** ** The view stays non-degenerate *)















(** ** Plotting points with missing coordinates *)

(** [plot_gpx_data] filters the latitudes and the longitudes of a segment
    separately and then pairs the two lists by position. *)

Lemma combine_fst_snd {A B : Type} (l : list (A * B)) :
  combine (map fst l) (map snd l) = l.
Proof.
  induction l as [| [a b] l IH]; cbn; [reflexivity | now rewrite IH].
Qed.

(** Without half-defined points the two filters select the same points. *)
Lemma not_none_both (points : list GPXPoint) :
  (forall p, In p points -> half_defined p = false) ->
  not_none longitude points = map fst (not_none both_defined points) /\
  not_none latitude points = map snd (not_none both_defined points).
Proof.
  induction points as [| p rest IH]; intro Hall; [split; reflexivity |].
  destruct IH as [IHlon IHlat]; [intros q Hq; apply Hall; right; exact Hq |].
  pose proof (Hall p (or_introl eq_refl)) as Hp.
  assert (Hb : both_defined p =
               match longitude p, latitude p with
               | Some lon, Some lat => Some (lon, lat)
               | _, _ => None
               end) by reflexivity.
  unfold half_defined in Hp. cbn [not_none]. rewrite Hb.
  destruct (longitude p), (latitude p); try discriminate Hp; cbn [map fst snd];
    rewrite IHlon, IHlat; split; reflexivity.
Qed.

Lemma plot_polyline_spec (dashed : bool) (acc : Canvas) (points : list GPXPoint) :
  (forall p, In p points -> half_defined p = false) ->
  plot_polyline dashed acc points = spec_polyline dashed acc points.
Proof.
  intro Hall. destruct (not_none_both points Hall) as [Elon Elat].
  unfold plot_polyline, spec_polyline. rewrite Elon, Elat, combine_fst_snd.
  destruct points as [| p rest]; [reflexivity |]. cbn [truthy].
  destruct (not_none both_defined (p :: rest)); reflexivity.
Qed.

Lemma plot_waypoints_spec (acc : Canvas) (wpts : list GPXPoint) :
  (forall p, In p wpts -> half_defined p = false) ->
  plot_waypoints acc wpts = spec_waypoints acc wpts.
Proof.
  intro Hall. destruct (not_none_both wpts Hall) as [Elon Elat].
  unfold plot_waypoints, spec_waypoints. rewrite Elon, Elat, combine_fst_snd.
  destruct (not_none both_defined wpts); reflexivity.
Qed.

Lemma fold_left_agree {A B : Type} (f g : A -> B -> A) (l : list B) (a : A) :
  (forall x, In x l -> forall a', f a' x = g a' x) ->
  fold_left f l a = fold_left g l a.
Proof.
  revert a. induction l as [| x l IH]; intros a Hfg; cbn; [reflexivity |].
  rewrite (Hfg x (or_introl eq_refl)). apply IH.
  intros y Hy. apply Hfg. right; exact Hy.
Qed.

(** On data in which every point has both coordinates or none, the code
    draws and accumulates exactly the points with both coordinates. *)
Lemma plot_layers_spec (borders : bool) (g : GPX) :
  (forall p, In p (gpx_points g) -> half_defined p = false) ->
  plot_layers borders g = spec_plot_layers borders g.
Proof.
  intro Hall. unfold plot_layers, spec_plot_layers, plot_tracks, plot_routes.
  rewrite plot_waypoints_spec
    by (intros p Hp; apply Hall; unfold gpx_points; rewrite !in_app_iff; auto).
  f_equal.
  rewrite (fold_left_agree
             (fun acc route => plot_polyline true acc (rte_points route))
             (fun acc route => spec_polyline true acc (rte_points route))).
  2:{ intros r Hr a. apply plot_polyline_spec. intros p Hp. apply Hall.
      unfold gpx_points. rewrite !in_app_iff. right; left.
      apply in_flat_map. exists r; auto. }
  f_equal.
  apply fold_left_agree. intros t Ht a.
  apply fold_left_agree. intros sg Hsg a'.
  apply plot_polyline_spec. intros p Hp. apply Hall.
  unfold gpx_points. rewrite !in_app_iff. left.
  apply in_flat_map. exists t; split; [exact Ht |].
  apply in_flat_map. exists sg; auto.
Qed.

(** C1 (the code departs from it): on [mixed_gpx] the only point with both
    coordinates is (lon 10, lat 2).  [plot_gpx_data] draws the line through
    (10, 1) and (20, 2) and fits the view to these two pairs; neither is a
    point of the data, each joins the longitude of one point with the
    latitude of another. *)
Theorem plot_pairs_coordinates_of_different_points :
  spec_plot_layers false mixed_gpx
    = ([Line [10 # 1] [2 # 1] false], [(10 # 1, 2 # 1)]) /\
  plot_layers false mixed_gpx
    = ([Line [10 # 1; 20 # 1] [1 # 1; 2 # 1] false],
       [(10 # 1, 1 # 1); (20 # 1, 2 # 1)]) /\
  exists self',
    plot_gpx_data (init false) mixed_gpx = Ok self' /\
    ax_artists self' = [Line [10 # 1; 20 # 1] [1 # 1; 2 # 1] false] /\
    view_is self' (9 # 1, 21 # 1) (9 # 10, 21 # 10).
Proof.
  split; [reflexivity |]. split; [reflexivity |].
  eexists. split; [vm_compute; reflexivity |].
  split; [reflexivity |].
  unfold view_is, lim_eq; cbn. repeat split; reflexivity.
Qed.

(** * Further properties *)

(** ** Sequences of calls: what never raises and what never changes *)











Lemma step_keeps_factor_and_borders (s s' : GPXPlotter) (op : Op) :
  step s op = Ok s' ->
  zoom_factor s' = zoom_factor s /\ country_borders_gdf s' = country_borders_gdf s.
Proof.
  destruct op; cbn [step].
  - unfold on_scroll.
    destruct (inaxes event); [| intros [= <-]; auto].
    destruct (xdata event); [| intros [= <-]; auto].
    destruct (ydata event); [| intros [= <-]; auto].
    destruct (button_is_str (button event) "up").
    + destruct (py_div 1 (zoom_factor s)); cbn [bind]; [| discriminate].
      intros [= <-]; auto.
    + destruct (button_is_str (button event) "down"); intros [= <-]; auto.
  - unfold on_button_press.
    destruct (inaxes event && button_is_int (button event) 1); intros [= <-]; auto.
  - unfold on_button_release.
    destruct (button_is_int (button event) 1); intros [= <-]; auto.
  - unfold on_mouse_motion.
    destruct (is_panning s && inaxes event); [| intros [= <-]; auto].
    destruct (xdata event); [| intros [= <-]; auto].
    destruct (ydata event); [| intros [= <-]; auto].
    destruct (py_sub_opt (pan_start_x s) q); cbn [bind]; [| discriminate].
    destruct (py_sub_opt (pan_start_y s) q0); cbn [bind]; [| discriminate].
    intros [= <-]; auto.
  - intros [= <-]; auto.
  - unfold plot_gpx_data, set_plot_limits.
    match goal with
    | |- (_ <- ?r ;; _) = _ -> _ => destruct r; cbn [bind]; [| discriminate]
    end.
    intros [= <-]; auto.
  - unfold set_plot_limits.
    match goal with
    | |- (_ <- ?r ;; _) = _ -> _ => destruct r; cbn [bind]; [| discriminate]
    end.
    intros [= <-]; auto.
  - intros [= <-]; auto.
Qed.

Lemma run_keeps_factor_and_borders (ops : list Op) (s s' : GPXPlotter) :
  run s ops = Ok s' ->
  zoom_factor s' = zoom_factor s /\ country_borders_gdf s' = country_borders_gdf s.
Proof.
  revert s. induction ops as [| op rest IH]; intros s; cbn [run].
  - intros [= <-]; auto.
  - destruct (step s op) as [s1 | e] eqn:E; cbn [bind]; [| discriminate].
    intro Hrun. destruct (IH s1 Hrun) as [Hz Hb].
    destruct (step_keeps_factor_and_borders s s1 op E) as [Hz1 Hb1].
    split; congruence.
Qed.

(** X3: no call changes the zoom factor or the border layer: after any
    sequence of calls they are what they were. *)
Theorem factor_and_borders_never_change (self self' : GPXPlotter) (ops : list Op) :
  run self ops = Ok self' ->
  zoom_factor self' = zoom_factor self /\
  country_borders_gdf self' = country_borders_gdf self.
Proof.
  exact (run_keeps_factor_and_borders ops self self').
Qed.

Lemma factor_and_borders_never_change_witness :
  zoom_factor after_session = zoom_factor (init false) /\
  country_borders_gdf after_session = country_borders_gdf (init false).
Proof.
  apply (factor_and_borders_never_change (init false) after_session session).
  vm_compute; reflexivity.
Defined.

(** ** More on zoom *)




(** X5: zooming out with the cursor inside the view gives a view that
    contains the old one and is 1.2 times longer on each axis. *)
Theorem zoom_out_grows_view (self : GPXPlotter) (event : MplEvent) (x y : Q) :
  inaxes event = true -> xdata event = Some x -> ydata event = Some y ->
  button event = BtnStr "down" -> zoom_factor self == 12 # 10 ->
  within x (ax_xlim self) -> within y (ax_ylim self) ->
  exists self',
    on_scroll self event = Ok self' /\
    nested (ax_xlim self) (ax_xlim self') /\ nested (ax_ylim self) (ax_ylim self') /\
    extent (ax_xlim self') == extent (ax_xlim self) * (12 # 10) /\
    extent (ax_ylim self') == extent (ax_ylim self) * (12 # 10).
Proof.
  intros Ha Hx Hy Hb Hz [Hx1 Hx2] [Hy1 Hy2].
  eexists. split; [exact (on_scroll_down self event x y Ha Hx Hy Hb) |].
  unfold nested, within, extent, zoom_limits; cbn [ax_xlim ax_ylim with_current
    with_ax_limits fst snd].
  rewrite Hz. repeat split; lra.
Qed.

Lemma zoom_out_grows_view_witness :
  exists self',
    on_scroll (init false) (scroll_event "down" (10 # 1) (50 # 1)) = Ok self' /\
    nested (ax_xlim (init false)) (ax_xlim self') /\
    nested (ax_ylim (init false)) (ax_ylim self') /\
    extent (ax_xlim self') == extent (ax_xlim (init false)) * (12 # 10) /\
    extent (ax_ylim self') == extent (ax_ylim (init false)) * (12 # 10).
Proof.
  apply (zoom_out_grows_view (init false) (scroll_event "down" (10 # 1) (50 # 1))
           (10 # 1) (50 # 1));
    try reflexivity; split; discriminate.
Defined.



(** ** More on pan *)

Lemma moves_accumulate (anchor_x anchor_y : Q) (cursors : list (Q * Q)) :
  forall s,
    is_panning s = true ->
    pan_start_x s = Some anchor_x -> pan_start_y s = Some anchor_y ->
    exists s',
      run s (moves cursors) = Ok s' /\
      lim_eq (ax_xlim s')
        (fst (ax_xlim s) + total_delta anchor_x (map fst cursors),
         snd (ax_xlim s) + total_delta anchor_x (map fst cursors)) /\
      lim_eq (ax_ylim s')
        (fst (ax_ylim s) + total_delta anchor_y (map snd cursors),
         snd (ax_ylim s) + total_delta anchor_y (map snd cursors)) /\
      is_panning s' = true /\
      pan_start_x s' = Some anchor_x /\ pan_start_y s' = Some anchor_y.
Proof.
  induction cursors as [| [x y] rest IH]; intros s Hp Hsx Hsy.
  - exists s. unfold lim_eq; cbn. repeat split; auto; ring.
  - cbn [moves map run step fst snd].
    pose proof (on_mouse_motion_panning s (motion_event x y) x y anchor_x anchor_y
                  Hp Hsx Hsy eq_refl eq_refl eq_refl) as E.
    cbv zeta in E. rewrite E. cbn [bind].
    match goal with
    | |- exists s', run ?s1 _ = _ /\ _ =>
        destruct (IH s1 Hp Hsx Hsy) as (s' & Er & [Hx1 Hx2] & [Hy1 Hy2] & Hrest)
    end.
    exists s'. split; [exact Er |].
    cbn [ax_xlim ax_ylim with_current with_ax_limits fst snd] in Hx1, Hx2, Hy1, Hy2.
    unfold lim_eq; cbn [fst snd total_delta fold_right].
    fold (total_delta anchor_x (map fst rest)).
    fold (total_delta anchor_y (map snd rest)).
    rewrite Hx1, Hx2, Hy1, Hy2.
    repeat split; try apply Hrest; ring.
Qed.

(** X7: after a left press at the anchor, the move events of the drag add
    up: each one shifts the limits it finds by anchor - cursor, so after the
    moves the view is shifted by the sum of anchor - cursor over all of
    them; the pan is still active and the anchor is the press point. *)
Theorem drag_moves_accumulate (self : GPXPlotter) (anchor_x anchor_y : Q)
    (cursors : list (Q * Q)) :
  exists self',
    run self (ButtonPress (press_event anchor_x anchor_y) :: moves cursors)
      = Ok self' /\
    lim_eq (ax_xlim self')
      (fst (ax_xlim self) + total_delta anchor_x (map fst cursors),
       snd (ax_xlim self) + total_delta anchor_x (map fst cursors)) /\
    lim_eq (ax_ylim self')
      (fst (ax_ylim self) + total_delta anchor_y (map snd cursors),
       snd (ax_ylim self) + total_delta anchor_y (map snd cursors)) /\
    is_panning self' = true /\
    pan_start_x self' = Some anchor_x /\ pan_start_y self' = Some anchor_y.
Proof.
  cbn [run step]. unfold on_button_press. cbn [press_event inaxes button
    button_is_int Z.eqb Pos.eqb andb xdata ydata bind].
  apply (moves_accumulate anchor_x anchor_y cursors
           (with_pan self true (Some anchor_x) (Some anchor_y) "fleur"));
    reflexivity.
Qed.

(** X8: a release of the left button, wherever the pointer is, ends the
    pan without touching the limits, and the pointer-move events that
    follow leave the plotter as it is. *)
Theorem release_ends_pan (self : GPXPlotter) (release move : MplEvent) :
  button release = BtnInt 1 ->
  exists self',
    on_button_release self release = Ok self' /\
    is_panning self' = false /\
    limits_of self' = limits_of self /\
    on_mouse_motion self' move = Ok self'.
Proof.
  intro Hb. unfold on_button_release. rewrite Hb. cbn [button_is_int Z.eqb Pos.eqb].
  eexists. split; [reflexivity |]. repeat split.
Qed.

Lemma release_ends_pan_witness :
  exists self',
    on_button_release pressed
      {| inaxes := false; xdata := None; ydata := None; button := BtnInt 1 |}
      = Ok self' /\
    is_panning self' = false /\
    limits_of self' = limits_of pressed /\
    on_mouse_motion self' (motion_event (12 # 1) (49 # 1)) = Ok self'.
Proof.
  apply (release_ends_pan pressed
           {| inaxes := false; xdata := None; ydata := None; button := BtnInt 1 |}
           (motion_event (12 # 1) (49 # 1))).
  reflexivity.
Defined.

(** ** More on auto-fit *)

(** The [max] in the padding never picks the 10% term below the threshold:
    the padding is 0.05 under a range of 0.1 and a tenth of the range from
    there on. *)
Lemma py_max2_padding (range : Q) :
  0 <= range ->
  py_max2 (range * (1 # 10)) (if Qltb range (1 # 10) then 5 # 100 else 0)
  = padding range.
Proof.
  intro Hr. unfold padding, py_max2.
  case_Qltb range (1 # 10).
  - case_Qltb (range * (1 # 10)) (5 # 100); [reflexivity | lra].
  - case_Qltb (range * (1 # 10)) 0; [lra | reflexivity].
Qed.


(** [fit_limits] with the padding written out. *)
Lemma fit_limits_cases (min_lon max_lon min_lat max_lat : Q) :
  min_lon <= max_lon -> min_lat <= max_lat ->
  fit_limits min_lon max_lon min_lat max_lat =
  if Qltb (max_lat - min_lat) (1 # 1000) && Qltb (max_lon - min_lon) (1 # 1000) then
    (((min_lon + max_lon) / 2 - (1 # 10), (min_lon + max_lon) / 2 + (1 # 10)),
     ((min_lat + max_lat) / 2 - (1 # 10), (min_lat + max_lat) / 2 + (1 # 10)))
  else
    ((min_lon - padding (max_lon - min_lon), max_lon + padding (max_lon - min_lon)),
     (min_lat - padding (max_lat - min_lat), max_lat + padding (max_lat - min_lat))).
Proof.
  intros Hx Hy. unfold fit_limits.
  rewrite !py_max2_padding by lra. reflexivity.
Qed.





(** The minimum and the maximum are elements of the list. *)
Lemma fold_min_in (rest : list Q) (x : Q) :
  In (fold_left (fun m y => if Qltb y m then y else m) rest x) (x :: rest).
Proof.
  revert x. induction rest as [| z rest IH]; intro x; cbn [fold_left].
  - left; reflexivity.
  - destruct (IH (if Qltb z x then z else x)) as [E | Hin].
    + rewrite <- E. destruct (Qltb z x); [right; left | left]; reflexivity.
    + right; right; exact Hin.
Qed.

Lemma fold_max_in (rest : list Q) (x : Q) :
  In (fold_left (fun m y => if Qltb m y then y else m) rest x) (x :: rest).
Proof.
  revert x. induction rest as [| z rest IH]; intro x; cbn [fold_left].
  - left; reflexivity.
  - destruct (IH (if Qltb x z then z else x)) as [E | Hin].
    + rewrite <- E. destruct (Qltb x z); [right; left | left]; reflexivity.
    + right; right; exact Hin.
Qed.

Lemma py_min_in (xs : list Q) (m : Q) : py_min xs = Ok m -> In m xs.
Proof.
  destruct xs as [| x rest]; [discriminate |]. intros [= <-]. apply fold_min_in.
Qed.

Lemma py_max_in (xs : list Q) (m : Q) : py_max xs = Ok m -> In m xs.
Proof.
  destruct xs as [| x rest]; [discriminate |]. intros [= <-]. apply fold_max_in.
Qed.

(** Lists with the same elements have the same extremes. *)
Lemma py_min_same_elements (xs ys : list Q) (m m' : Q) :
  (forall v, In v xs <-> In v ys) ->
  py_min xs = Ok m -> py_min ys = Ok m' -> m == m'.
Proof.
  intros Hsame Ex Ey.
  assert (Hx : xs <> []) by (intros ->; discriminate Ex).
  assert (Hy : ys <> []) by (intros ->; discriminate Ey).
  destruct (py_min_ok xs Hx) as (a & Ea & La).
  destruct (py_min_ok ys Hy) as (b & Eb & Lb).
  assert (a = m) by congruence. assert (b = m') by congruence. subst a b.
  pose proof (La m' (proj2 (Hsame m') (py_min_in ys m' Ey))).
  pose proof (Lb m (proj1 (Hsame m) (py_min_in xs m Ex))).
  lra.
Qed.

Lemma py_max_same_elements (xs ys : list Q) (m m' : Q) :
  (forall v, In v xs <-> In v ys) ->
  py_max xs = Ok m -> py_max ys = Ok m' -> m == m'.
Proof.
  intros Hsame Ex Ey.
  assert (Hx : xs <> []) by (intros ->; discriminate Ex).
  assert (Hy : ys <> []) by (intros ->; discriminate Ey).
  destruct (py_max_ok xs Hx) as (a & Ea & La).
  destruct (py_max_ok ys Hy) as (b & Eb & Lb).
  assert (a = m) by congruence. assert (b = m') by congruence. subst a b.
  pose proof (La m' (proj2 (Hsame m') (py_max_in ys m' Ey))).
  pose proof (Lb m (proj1 (Hsame m) (py_max_in xs m Ex))).
  lra.
Qed.

Lemma map_same_elements {A B : Type} (f : A -> B) (l l' : list A) :
  (forall c, In c l <-> In c l') -> forall v, In v (map f l) <-> In v (map f l').
Proof.
  intros Hsame v. rewrite !in_map_iff.
  split; intros (c & E & Hc); exists c; split; auto; apply Hsame; exact Hc.
Qed.

(** Comparisons and the padding do not tell equal rationals apart. *)
Lemma Qltb_compat (x x' y y' : Q) : x == x' -> y == y' -> Qltb x y = Qltb x' y'.
Proof.
  intros Hx Hy. case_Qltb x y; symmetry; [apply Qltb_true | apply Qltb_false]; lra.
Qed.

Lemma padding_compat (r r' : Q) : r == r' -> padding r == padding r'.
Proof.
  intro Hr. unfold padding.
  rewrite (Qltb_compat r r' (1 # 10) (1 # 10) Hr (Qeq_refl _)).
  destruct (Qltb r' (1 # 10)); [reflexivity | rewrite Hr; reflexivity].
Qed.

Lemma fit_limits_compat (a b c d a' b' c' d' : Q) :
  a <= b -> c <= d -> a == a' -> b == b' -> c == c' -> d == d' ->
  lim_eq (fst (fit_limits a b c d)) (fst (fit_limits a' b' c' d')) /\
  lim_eq (snd (fit_limits a b c d)) (snd (fit_limits a' b' c' d')).
Proof.
  intros Hab Hcd Ea Eb Ec Ed.
  rewrite (fit_limits_cases a b c d Hab Hcd).
  rewrite (fit_limits_cases a' b' c' d') by lra.
  assert (Ex : b - a == b' - a') by lra.
  assert (Ey : d - c == d' - c') by lra.
  rewrite (Qltb_compat _ _ (1 # 1000) (1 # 1000) Ex (Qeq_refl _)).
  rewrite (Qltb_compat _ _ (1 # 1000) (1 # 1000) Ey (Qeq_refl _)).
  pose proof (padding_compat _ _ Ex) as Px.
  pose proof (padding_compat _ _ Ey) as Py.
  destruct (Qltb (d' - c') (1 # 1000) && Qltb (b' - a') (1 # 1000));
    unfold lim_eq; cbn [fst snd]; repeat split; halves; lra.
Qed.

(** X11: the fitted view depends only on which pairs occur in the list,
    not on their order or on repetitions. *)
Theorem auto_fit_ignores_order (self : GPXPlotter) (coords coords' : list (Q * Q)) :
  coords <> [] ->
  (forall c, In c coords <-> In c coords') ->
  exists s1 s2,
    set_plot_limits self coords = Ok s1 /\
    set_plot_limits self coords' = Ok s2 /\
    lim_eq (ax_xlim s1) (ax_xlim s2) /\ lim_eq (ax_ylim s1) (ax_ylim s2) /\
    lim_eq (current_xlim s1) (current_xlim s2) /\
    lim_eq (current_ylim s1) (current_ylim s2).
Proof.
  intros Hne Hsame.
  assert (Hne' : coords' <> []).
  { destruct coords as [| c rest]; [congruence |].
    intros ->. apply (proj1 (Hsame c)). left; reflexivity. }
  destruct (set_plot_limits_nonempty self coords Hne)
    as (a & b & c & d & E1 & E2 & E3 & E4 & _ & Hx & Hy & Hfit).
  destruct (set_plot_limits_nonempty self coords' Hne')
    as (a' & b' & c' & d' & F1 & F2 & F3 & F4 & _ & _ & _ & Hfit').
  cbv zeta in Hfit, Hfit'.
  eexists. eexists. split; [exact Hfit |]. split; [exact Hfit' |].
  pose proof (map_same_elements fst coords coords' Hsame) as Sx.
  pose proof (map_same_elements snd coords coords' Hsame) as Sy.
  destruct (fit_limits_compat a b c d a' b' c' d' Hx Hy
              (py_min_same_elements _ _ _ _ Sx E1 F1)
              (py_max_same_elements _ _ _ _ Sx E2 F2)
              (py_min_same_elements _ _ _ _ Sy E3 F3)
              (py_max_same_elements _ _ _ _ Sy E4 F4)) as [Lx Ly].
  cbn. auto.
Qed.

Lemma auto_fit_ignores_order_witness :
  exists s1 s2,
    set_plot_limits (init false) [(10 # 1, 50 # 1); (12 # 1, 51 # 1)] = Ok s1 /\
    set_plot_limits (init false)
      [(12 # 1, 51 # 1); (10 # 1, 50 # 1); (12 # 1, 51 # 1)] = Ok s2 /\
    lim_eq (ax_xlim s1) (ax_xlim s2) /\ lim_eq (ax_ylim s1) (ax_ylim s2) /\
    lim_eq (current_xlim s1) (current_xlim s2) /\
    lim_eq (current_ylim s1) (current_ylim s2).
Proof.
  apply (auto_fit_ignores_order (init false)
           [(10 # 1, 50 # 1); (12 # 1, 51 # 1)]
           [(12 # 1, 51 # 1); (10 # 1, 50 # 1); (12 # 1, 51 # 1)]).
  - discriminate.
  - intro c; cbn [In]; tauto.
Defined.

(** ** More on plotting *)

(** Every loop body appends to the canvas it is given. *)
Lemma plot_polyline_appends (dashed : bool) (acc : Canvas) (points : list GPXPoint) :
  plot_polyline dashed acc points =
  (fst acc ++ fst (polyline_of dashed points),
   snd acc ++ snd (polyline_of dashed points)).
Proof.
  unfold polyline_of, plot_polyline. destruct acc as [arts cs].
  destruct (truthy points); cbn [fst snd]; [| now rewrite !app_nil_r].
  destruct (truthy (not_none latitude points) && truthy (not_none longitude points));
    cbn [fst snd app]; [reflexivity | now rewrite !app_nil_r].
Qed.

Lemma plot_waypoints_appends (acc : Canvas) (wpts : list GPXPoint) :
  plot_waypoints acc wpts =
  (fst acc ++ fst (waypoints_of wpts), snd acc ++ snd (waypoints_of wpts)).
Proof.
  unfold waypoints_of, plot_waypoints. destruct acc as [arts cs].
  destruct (truthy (not_none longitude wpts) && truthy (not_none latitude wpts));
    cbn [fst snd app]; [reflexivity | now rewrite !app_nil_r].
Qed.

Lemma fold_left_appends {X : Type} (body : Canvas -> X -> Canvas) (f : X -> Canvas)
    (l : list X) :
  (forall acc x, body acc x = (fst acc ++ fst (f x), snd acc ++ snd (f x))) ->
  forall acc,
    fold_left body l acc =
    (fst acc ++ flat_map (fun x => fst (f x)) l,
     snd acc ++ flat_map (fun x => snd (f x)) l).
Proof.
  intro Hbody. induction l as [| x l IH]; intro acc; cbn [fold_left flat_map].
  - rewrite !app_nil_r. destruct acc; reflexivity.
  - rewrite IH, Hbody. cbn [fst snd]. rewrite <- !app_assoc. reflexivity.
Qed.

(** The layers and the accumulated pairs of [plot_gpx_data], group by
    group: borders, track segments, routes, waypoints. *)
Lemma plot_layers_layout (borders : bool) (g : GPX) :
  plot_layers borders g =
  (border_artists borders
   ++ flat_map (fun t => flat_map (fun sg => fst (polyline_of false (seg_points sg)))
                                  (segments t)) (tracks g)
   ++ flat_map (fun r => fst (polyline_of true (rte_points r))) (routes g)
   ++ fst (waypoints_of (waypoints g)),
   flat_map (fun t => flat_map (fun sg => snd (polyline_of false (seg_points sg)))
                               (segments t)) (tracks g)
   ++ flat_map (fun r => snd (polyline_of true (rte_points r))) (routes g)
   ++ snd (waypoints_of (waypoints g))).
Proof.
  unfold plot_layers, plot_tracks, plot_routes.
  rewrite plot_waypoints_appends.
  rewrite (fold_left_appends _ (fun r => polyline_of true (rte_points r)))
    by (intros; apply plot_polyline_appends).
  rewrite (fold_left_appends _
             (fun t => (flat_map (fun sg => fst (polyline_of false (seg_points sg)))
                                 (segments t),
                        flat_map (fun sg => snd (polyline_of false (seg_points sg)))
                                 (segments t)))).
  - cbn [fst snd app]. unfold border_artists. rewrite <- !app_assoc. reflexivity.
  - intros acc t.
    apply (fold_left_appends _ (fun sg => polyline_of false (seg_points sg))).
    intros; apply plot_polyline_appends.
Qed.

Lemma not_none_in {A B : Type} (f : A -> option B) (ps : list A) (v : B) :
  In v (not_none f ps) <-> exists p, In p ps /\ f p = Some v.
Proof.
  induction ps as [| p rest IH]; cbn [not_none In].
  - split; [intros [] | intros (p & [] & _)].
  - destruct (f p) as [w |] eqn:E; cbn [In]; rewrite IH; split.
    + intros [<- | (q & Hq & Eq)]; [exists p; auto | exists q; auto].
    + intros (q & [<- | Hq] & Eq); [left; congruence | right; exists q; auto].
    + intros (q & Hq & Eq); exists q; auto.
    + intros (q & [<- | Hq] & Eq); [congruence | exists q; auto].
Qed.

Lemma flat_map_nil {A B : Type} (f : A -> list B) (l : list A) :
  (forall x, In x l -> f x = []) -> flat_map f l = [].
Proof.
  induction l as [| x l IH]; intro H; cbn [flat_map]; [reflexivity |].
  rewrite (H x (or_introl eq_refl)), IH; [reflexivity |].
  intros y Hy; apply H; right; exact Hy.
Qed.

(** Membership in the groups of [gpx_points]. *)
Lemma in_track_points (g : GPX) (t : GPXTrack) (sg : GPXTrackSegment) (p : GPXPoint) :
  In t (tracks g) -> In sg (segments t) -> In p (seg_points sg) ->
  In p (gpx_points g).
Proof.
  intros Ht Hsg Hp. unfold gpx_points. rewrite !in_app_iff. left.
  apply in_flat_map. exists t; split; [exact Ht |].
  apply in_flat_map. exists sg; auto.
Qed.

Lemma in_route_points (g : GPX) (r : GPXRoute) (p : GPXPoint) :
  In r (routes g) -> In p (rte_points r) -> In p (gpx_points g).
Proof.
  intros Hr Hp. unfold gpx_points. rewrite !in_app_iff. right; left.
  apply in_flat_map. exists r; auto.
Qed.

Lemma in_waypoints (g : GPX) (p : GPXPoint) :
  In p (waypoints g) -> In p (gpx_points g).
Proof.
  intro Hp. unfold gpx_points. rewrite !in_app_iff. auto.
Qed.

Lemma not_none_all_none {A B : Type} (f : A -> option B) (ps : list A) :
  (forall p, In p ps -> f p = None) -> not_none f ps = [].
Proof.
  intro Hall. destruct (not_none f ps) as [| v rest] eqn:E; [reflexivity |].
  assert (Hin : In v (not_none f ps)) by (rewrite E; left; reflexivity).
  apply not_none_in in Hin. destruct Hin as (p & Hp & Ep).
  rewrite (Hall p Hp) in Ep. discriminate Ep.
Qed.

Lemma polyline_of_nothing (dashed : bool) (points : list GPXPoint) :
  (forall p, In p points -> latitude p = None) \/
  (forall p, In p points -> longitude p = None) ->
  polyline_of dashed points = ([], []).
Proof.
  intros H. unfold polyline_of, plot_polyline.
  destruct (truthy points); [| reflexivity].
  destruct H as [H | H]; rewrite (not_none_all_none _ _ H); cbn [truthy andb];
    [| rewrite andb_false_r]; reflexivity.
Qed.

Lemma waypoints_of_nothing (wpts : list GPXPoint) :
  (forall p, In p wpts -> latitude p = None) \/
  (forall p, In p wpts -> longitude p = None) ->
  waypoints_of wpts = ([], []).
Proof.
  intros H. unfold waypoints_of, plot_waypoints.
  destruct H as [H | H]; rewrite (not_none_all_none _ _ H); cbn [truthy andb];
    [rewrite andb_false_r |]; reflexivity.
Qed.

(** X12: when no point of the data has a latitude, or none has a
    longitude (in particular when there are no points at all),
    [plot_gpx_data] draws nothing but the border layer and leaves the
    default region, lon (-10, 30) by lat (35, 65). *)
Theorem plot_without_coordinates_gives_default (self : GPXPlotter) (g : GPX) :
  (forall p, In p (gpx_points g) -> latitude p = None) \/
  (forall p, In p (gpx_points g) -> longitude p = None) ->
  exists self',
    plot_gpx_data self g = Ok self' /\
    ax_artists self' = border_artists (country_borders_gdf self) /\
    ax_xlim self' = (-10 # 1, 30 # 1) /\ ax_ylim self' = (35 # 1, 65 # 1) /\
    current_xlim self' = (-10 # 1, 30 # 1) /\ current_ylim self' = (35 # 1, 65 # 1).
Proof.
  intro H.
  assert (Hgroup : forall pts, (forall p, In p pts -> In p (gpx_points g)) ->
            (forall p, In p pts -> latitude p = None) \/
            (forall p, In p pts -> longitude p = None)).
  { intros pts Hsub. destruct H as [H | H]; [left | right];
      intros p Hp; apply H, Hsub, Hp. }
  assert (E : plot_layers (country_borders_gdf self) g =
              (border_artists (country_borders_gdf self), [])).
  { rewrite plot_layers_layout.
    rewrite waypoints_of_nothing by (apply Hgroup; apply in_waypoints).
    rewrite !(flat_map_nil (fun r => _ (polyline_of true (rte_points r))))
      by (intros r Hr; rewrite polyline_of_nothing;
          [reflexivity | apply Hgroup; intros p; apply in_route_points; exact Hr]).
    rewrite !(flat_map_nil (fun t => flat_map _ (segments t)))
      by (intros t Ht; apply flat_map_nil; intros sg Hsg;
          rewrite polyline_of_nothing;
          [reflexivity
          | apply Hgroup; intros p; apply (in_track_points g t sg); assumption]).
    cbn [fst snd app]. rewrite app_nil_r. reflexivity. }
  unfold plot_gpx_data. rewrite E. cbn [fst snd].
  eexists. split; [reflexivity |]. repeat split.
Qed.

Lemma plot_without_coordinates_gives_default_witness :
  exists self',
    plot_gpx_data after_session
      (mkGPX [mkTrack [mkSegment [mkPoint None (Some (10 # 1))]]] []
             [mkPoint None None]) = Ok self' /\
    ax_artists self' = border_artists (country_borders_gdf after_session) /\
    ax_xlim self' = (-10 # 1, 30 # 1) /\ ax_ylim self' = (35 # 1, 65 # 1) /\
    current_xlim self' = (-10 # 1, 30 # 1) /\ current_ylim self' = (35 # 1, 65 # 1).
Proof.
  apply (plot_without_coordinates_gives_default after_session
           (mkGPX [mkTrack [mkSegment [mkPoint None (Some (10 # 1))]]] []
                  [mkPoint None None])).
  left. intros p Hp. cbn in Hp. destruct Hp as [<- | [<- | []]]; reflexivity.
Defined.




(** One segment or route contributes at most one line, of its own style. *)
Lemma polyline_of_artists (dashed : bool) (points : list GPXPoint) :
  forallb (is_line dashed) (fst (polyline_of dashed points)) = true /\
  (List.length (fst (polyline_of dashed points)) <= 1)%nat.
Proof.
  unfold polyline_of, plot_polyline.
  destruct (truthy points); [| split; [reflexivity | cbn; lia]].
  destruct (truthy (not_none latitude points) && truthy (not_none longitude points));
    cbn; [rewrite Bool.eqb_reflx | ]; split; auto; lia.
Qed.

Lemma waypoints_of_artists (wpts : list GPXPoint) :
  forallb is_scatter (fst (waypoints_of wpts)) = true /\
  (List.length (fst (waypoints_of wpts)) <= 1)%nat.
Proof.
  unfold waypoints_of, plot_waypoints.
  destruct (truthy (not_none longitude wpts) && truthy (not_none latitude wpts));
    cbn; split; auto; lia.
Qed.

Lemma flat_map_forallb {A B : Type} (f : A -> list B) (test : B -> bool) (l : list A) :
  (forall x, In x l -> forallb test (f x) = true) ->
  forallb test (flat_map f l) = true.
Proof.
  intro H. apply forallb_forall. intros b Hb.
  apply in_flat_map in Hb. destruct Hb as (x & Hx & Hbx).
  exact (proj1 (forallb_forall test (f x)) (H x Hx) b Hbx).
Qed.

Lemma flat_map_short {A B : Type} (f : A -> list B) (l : list A) :
  (forall x, (List.length (f x) <= 1)%nat) ->
  (List.length (flat_map f l) <= List.length l)%nat.
Proof.
  intro H. induction l as [| x l IH]; cbn [flat_map List.length]; [lia |].
  rewrite length_app. specialize (H x). lia.
Qed.

Lemma flat_map_nested {A B C : Type} (f : A -> list B) (h : B -> list C) (l : list A) :
  flat_map (fun a => flat_map h (f a)) l = flat_map h (flat_map f l).
Proof.
  induction l as [| a l IH]; cbn [flat_map]; [reflexivity |].
  rewrite flat_map_app, IH. reflexivity.
Qed.

(** X14: the artists that [plot_gpx_data] leaves are, in this order, the
    border layer if it is loaded, solid lines (at most one per track
    segment), dashed lines (at most one per route) and at most one scatter
    of waypoints. *)
Theorem plot_layer_order (borders : bool) (g : GPX) :
  exists solid dashed scatter,
    fst (plot_layers borders g)
      = border_artists borders ++ solid ++ dashed ++ scatter /\
    forallb (is_line false) solid = true /\
    forallb (is_line true) dashed = true /\
    forallb is_scatter scatter = true /\
    (List.length solid <= List.length (flat_map segments (tracks g)))%nat /\
    (List.length dashed <= List.length (routes g))%nat /\
    (List.length scatter <= 1)%nat.
Proof.
  rewrite plot_layers_layout. cbn [fst].
  do 3 eexists. split; [reflexivity |].
  split; [| split; [| split; [| split; [| split]]]].
  - apply flat_map_forallb. intros t _. apply flat_map_forallb. intros sg _.
    apply polyline_of_artists.
  - apply flat_map_forallb. intros r _. apply polyline_of_artists.
  - apply waypoints_of_artists.
  - rewrite (flat_map_nested segments
               (fun sg => fst (polyline_of false (seg_points sg)))).
    apply flat_map_short. intro sg. apply polyline_of_artists.
  - apply flat_map_short. intro r. apply polyline_of_artists.
  - apply waypoints_of_artists.
Qed.

Lemma polyline_of_pairs (dashed : bool) (points : list GPXPoint) (lon lat : Q) :
  In (lon, lat) (snd (polyline_of dashed points)) ->
  In lon (not_none longitude points) /\ In lat (not_none latitude points).
Proof.
  unfold polyline_of, plot_polyline.
  destruct (truthy points); [| intros []].
  destruct (truthy (not_none latitude points) && truthy (not_none longitude points));
    cbn [fst snd app]; [| intros []].
  intro H. split; [exact (in_combine_l _ _ _ _ H) | exact (in_combine_r _ _ _ _ H)].
Qed.

Lemma waypoints_of_pairs (wpts : list GPXPoint) (lon lat : Q) :
  In (lon, lat) (snd (waypoints_of wpts)) ->
  In lon (not_none longitude wpts) /\ In lat (not_none latitude wpts).
Proof.
  unfold waypoints_of, plot_waypoints.
  destruct (truthy (not_none longitude wpts) && truthy (not_none latitude wpts));
    cbn [fst snd app]; [| intros []].
  intro H. split; [exact (in_combine_l _ _ _ _ H) | exact (in_combine_r _ _ _ _ H)].
Qed.

(** X15: [plot_gpx_data] never makes up a coordinate: in every pair that
    it accumulates for the fit, the longitude is the longitude of a point
    of the data and the latitude is the latitude of a point of the data
    (not always of the same point). *)
Theorem accumulated_coordinates_come_from_data (borders : bool) (g : GPX)
    (lon lat : Q) :
  In (lon, lat) (snd (plot_layers borders g)) ->
  exists p q,
    In p (gpx_points g) /\ longitude p = Some lon /\
    In q (gpx_points g) /\ latitude q = Some lat.
Proof.
  rewrite plot_layers_layout. cbn [snd]. rewrite !in_app_iff.
  assert (Hgroup : forall pts, (forall p, In p pts -> In p (gpx_points g)) ->
            In lon (not_none longitude pts) /\ In lat (not_none latitude pts) ->
            exists p q, In p (gpx_points g) /\ longitude p = Some lon /\
                        In q (gpx_points g) /\ latitude q = Some lat).
  { intros pts Hsub [Hlon Hlat].
    apply not_none_in in Hlon, Hlat.
    destruct Hlon as (p & Hp & Ep). destruct Hlat as (q & Hq & Eq).
    exists p, q. auto. }
  intros [H | [H | H]].
  - apply in_flat_map in H. destruct H as (t & Ht & H).
    apply in_flat_map in H. destruct H as (sg & Hsg & H).
    apply (Hgroup (seg_points sg));
      [intros p; apply (in_track_points g t sg); assumption
      | exact (polyline_of_pairs _ _ _ _ H)].
  - apply in_flat_map in H. destruct H as (r & Hr & H).
    apply (Hgroup (rte_points r));
      [intros p; apply in_route_points; exact Hr
      | exact (polyline_of_pairs _ _ _ _ H)].
  - apply (Hgroup (waypoints g));
      [apply in_waypoints | exact (waypoints_of_pairs _ _ _ H)].
Qed.

Lemma accumulated_coordinates_come_from_data_witness :
  exists p q,
    In p (gpx_points mixed_gpx) /\ longitude p = Some (20 # 1) /\
    In q (gpx_points mixed_gpx) /\ latitude q = Some (2 # 1).
Proof.
  apply (accumulated_coordinates_come_from_data false mixed_gpx (20 # 1) (2 # 1)).
  cbn. right; left; reflexivity.
Defined.

(** On a group of points none of which has exactly one coordinate, the
    accumulated pairs are the points with both coordinates, and the two
    lists that are drawn pair up. *)
Lemma group_well_formed (points : list GPXPoint) :
  (forall p, In p points -> half_defined p = false) ->
  combine (not_none longitude points) (not_none latitude points)
    = not_none both_defined points /\
  List.length (not_none longitude points) = List.length (not_none latitude points) /\
  truthy (not_none longitude points) = truthy (not_none both_defined points) /\
  truthy (not_none latitude points) = truthy (not_none both_defined points).
Proof.
  intro Hall. destruct (not_none_both points Hall) as [Elon Elat].
  rewrite Elon, Elat, combine_fst_snd, !length_map.
  destruct (not_none both_defined points); repeat split.
Qed.







Lemma polyline_of_match (dashed : bool) (points : list GPXPoint) :
  (forall q, In q points -> half_defined q = false) ->
  forallb lists_match (fst (polyline_of dashed points)) = true.
Proof.
  intro Hall. destruct (group_well_formed points Hall) as (_ & El & _ & _).
  unfold polyline_of, plot_polyline.
  destruct (truthy points); [| reflexivity].
  destruct (truthy (not_none latitude points) && truthy (not_none longitude points));
    [| reflexivity].
  cbn. rewrite El, Nat.eqb_refl. reflexivity.
Qed.

Lemma waypoints_of_match (wpts : list GPXPoint) :
  (forall q, In q wpts -> half_defined q = false) ->
  forallb lists_match (fst (waypoints_of wpts)) = true.
Proof.
  intro Hall. destruct (group_well_formed wpts Hall) as (_ & El & _ & _).
  unfold waypoints_of, plot_waypoints.
  destruct (truthy (not_none longitude wpts) && truthy (not_none latitude wpts));
    [| reflexivity].
  cbn. rewrite El, Nat.eqb_refl. reflexivity.
Qed.

(** X17: when no point of the data has exactly one coordinate, every call
    of [ax.plot] and [ax.scatter] gets a list of longitudes and a list of
    latitudes of the same length. *)
Theorem drawn_lists_have_equal_length (borders : bool) (g : GPX) :
  (forall q, In q (gpx_points g) -> half_defined q = false) ->
  forallb lists_match (fst (plot_layers borders g)) = true.
Proof.
  intro Hall. rewrite plot_layers_layout. cbn [fst].
  rewrite !forallb_app. repeat (apply andb_true_intro; split).
  - destruct borders; reflexivity.
  - apply flat_map_forallb. intros t Ht. apply flat_map_forallb. intros sg Hsg.
    apply polyline_of_match. intros q Hq. apply Hall.
    apply (in_track_points g t sg); assumption.
  - apply flat_map_forallb. intros r Hr.
    apply polyline_of_match. intros q Hq. apply Hall.
    apply (in_route_points g r); assumption.
  - apply waypoints_of_match. intros q Hq. apply Hall. apply in_waypoints; exact Hq.
Qed.

Lemma drawn_lists_have_equal_length_witness :
  forallb lists_match
    (fst (plot_layers true
            (mkGPX [] [mkRoute [mkPoint (Some (50 # 1)) (Some (10 # 1));
                                mkPoint None None]]
                   [mkPoint (Some (51 # 1)) (Some (12 # 1))]))) = true.
Proof.
  apply (drawn_lists_have_equal_length true
           (mkGPX [] [mkRoute [mkPoint (Some (50 # 1)) (Some (10 # 1));
                               mkPoint None None]]
                  [mkPoint (Some (51 # 1)) (Some (12 # 1))])).
  intros q Hq. cbn in Hq. destruct Hq as [<- | [<- | [<- | []]]]; reflexivity.
Defined.

(** ** Loading the border layer *)

(** X18: [_load_shape_files] never raises and logs exactly one record.  It
    returns a frame exactly when geopandas is available, the shapefile
    exists and reading it succeeds, and that is the only case in which the
    record is at level info; a new plotter has its border layer exactly
    then. *)
Theorem load_shape_files_outcome {G : Type} (env : ShapeEnv G) :
  List.length (snd (load_shape_files env)) = 1%nat /\
  (forall gdf,
     fst (load_shape_files env) = Some gdf <->
     geopandas_available env = true /\ shp_exists env = Some true /\
     read_file env = Some gdf) /\
  (snd (load_shape_files env) = [LogInfo] <-> fst (load_shape_files env) <> None) /\
  (country_borders_gdf (new_plotter env) = true <->
   fst (load_shape_files env) <> None).
Proof.
  unfold new_plotter, load_shape_files.
  destruct (geopandas_available env), (shp_exists env) as [[|] |],
    (read_file env) as [gdf0 |]; cbn;
    (split; [reflexivity |]);
    (split; [intro gdf; split;
               [intros [= <-] || discriminate; auto
               | intros (? & ? & ?); congruence] |]);
    split; split; congruence || discriminate || auto.
Qed.

(** ** Presses *)

(** X19: a left press over the axes that lacks a cursor coordinate still
    starts a pan, and the next pointer-move over the axes with coordinates
    raises [TypeError]: [_on_button_press] does not check for [None] the
    way [_on_scroll] and [_on_mouse_motion] do. *)
Theorem move_after_incomplete_press_raises (self : GPXPlotter) (press : MplEvent)
    (x y : Q) :
  inaxes press = true -> button press = BtnInt 1 ->
  xdata press = None \/ ydata press = None ->
  exists s1,
    on_button_press self press = Ok s1 /\ is_panning s1 = true /\
    on_mouse_motion s1 (motion_event x y) = Raise TypeError.
Proof.
  intros Ha Hb Hnone. unfold on_button_press. rewrite Ha, Hb.
  cbn [button_is_int Z.eqb Pos.eqb andb].
  eexists. split; [reflexivity |]. split; [reflexivity |].
  unfold on_mouse_motion. cbn.
  destruct Hnone as [-> | ->]; [reflexivity |].
  destruct (xdata press); reflexivity.
Qed.

Lemma move_after_incomplete_press_raises_witness :
  exists s1,
    on_button_press (init false)
      {| inaxes := true; xdata := Some (10 # 1); ydata := None; button := BtnInt 1 |}
      = Ok s1 /\
    is_panning s1 = true /\
    on_mouse_motion s1 (motion_event (12 # 1) (49 # 1)) = Raise TypeError.
Proof.
  apply (move_after_incomplete_press_raises (init false)
           {| inaxes := true; xdata := Some (10 # 1); ydata := None;
              button := BtnInt 1 |}
           (12 # 1) (49 # 1));
    try reflexivity.
  right; reflexivity.
Defined.

Lemma click_keeps_view (s s' : GPXPlotter) (op : Op) :
  is_click op = true -> step s op = Ok s' ->
  limits_of s' = limits_of s /\ ax_artists s' = ax_artists s.
Proof.
  destruct op; try discriminate; intros _; cbn [step].
  - unfold on_button_press.
    destruct (inaxes event && button_is_int (button event) 1); intros [= <-]; auto.
  - unfold on_button_release.
    destruct (button_is_int (button event) 1); intros [= <-]; auto.
  - intros [= <-]; auto.
Qed.

(** X20: presses, releases and resizes, in any number and order, never
    raise and leave the limits and the drawn artists as they are; only
    scrolling, moving during a pan, plotting, fitting and clearing can
    change the view. *)
Theorem clicks_do_not_move_view (ops : list Op) (self : GPXPlotter) :
  forallb is_click ops = true ->
  exists self',
    run self ops = Ok self' /\
    limits_of self' = limits_of self /\ ax_artists self' = ax_artists self.
Proof.
  revert self. induction ops as [| op rest IH]; intros self Hall; cbn [run].
  - exists self. auto.
  - cbn [forallb] in Hall. apply andb_prop in Hall. destruct Hall as [Hop Hrest].
    assert (Hret : exists s1, step self op = Ok s1).
    { destruct op; try discriminate Hop; cbn [step].
      - unfold on_button_press.
        destruct (inaxes event && button_is_int (button event) 1); eexists; reflexivity.
      - unfold on_button_release.
        destruct (button_is_int (button event) 1); eexists; reflexivity.
      - eexists; reflexivity. }
    destruct Hret as [s1 E]. rewrite E; cbn [bind].
    destruct (click_keeps_view self s1 op Hop E) as [Hl Ha].
    destruct (IH s1 Hrest) as (s' & Er & Hl' & Ha').
    exists s'. split; [exact Er |]. split; congruence.
Qed.

Lemma clicks_do_not_move_view_witness :
  exists self',
    run after_session
      [ButtonPress (press_event (10 # 1) (50 # 1)); Resize;
       ButtonRelease (press_event (10 # 1) (50 # 1))] = Ok self' /\
    limits_of self' = limits_of after_session /\
    ax_artists self' = ax_artists after_session.
Proof.
  apply (clicks_do_not_move_view
           [ButtonPress (press_event (10 # 1) (50 # 1)); Resize;
            ButtonRelease (press_event (10 # 1) (50 # 1))] after_session).
  reflexivity.
Defined.
